(** * okta: the request/response pipeline of the Okta client (okta.go)

    A shallow embedding of [okta.go]: client construction ([New],
    [buildURL]), query options ([addOptions]), request construction
    ([NewRequest]), the credential header ([AddAuthorization]), dispatch
    ([Do]) and the classification of responses ([checkResponse]).

    The package is a thin layer over Go's standard library.  What the
    package itself computes is written out below; what it asks of
    [net/url], [encoding/json], [go-querystring] and the HTTP transport
    is taken as a parameter (class [Library]). *)

From Stdlib Require Import ZArith String Ascii List Bool Lia.
From Stdlib.Strings Require Import Byte.
From stdpp Require Import base option gmap strings list pretty.

Local Open Scope Z_scope.
Local Open Scope string_scope.

(** ** Go values and errors *)

(** The [error] values that come out of the libraries.  [io.EOF] and the
    two context errors are sentinels the code compares against or hands
    on; every other library error is kept by its text. *)
Inductive liberror : Type :=
| io_EOF
| io_ErrUnexpectedEOF
| context_Canceled
| context_DeadlineExceeded
| errors_New (text : string).

(** [reflect.Kind]. *)
Inductive Kind : Type :=
| Invalid | Bool | Int | Int8 | Int16 | Int32 | Int64
| Uint | Uint8 | Uint16 | Uint32 | Uint64 | Uintptr
| Float32 | Float64 | Complex64 | Complex128
| Array | Chan | Func | Interface | Map | Ptr | Slice
| String_ | Struct | UnsafePointer.

Definition Kind_eqb (a b : Kind) : bool :=
  match a, b with
  | Invalid, Invalid | Bool, Bool | Int, Int | Int8, Int8 | Int16, Int16
  | Int32, Int32 | Int64, Int64 | Uint, Uint | Uint8, Uint8
  | Uint16, Uint16 | Uint32, Uint32 | Uint64, Uint64 | Uintptr, Uintptr
  | Float32, Float32 | Float64, Float64 | Complex64, Complex64
  | Complex128, Complex128 | Array, Array | Chan, Chan | Func, Func
  | Interface, Interface | Map, Map | Ptr, Ptr | Slice, Slice
  | String_, String_ | Struct, Struct | UnsafePointer, UnsafePointer => true
  | _, _ => false
  end.

(** The data a Go value carries, as far as JSON and query encoding see
    it. *)
#[warnings="-register-all"]
Inductive GoValue : Type :=
| vnull
| vbool (b : bool)
| vint (z : Z)
| vstring (s : string)
| vslice (elems : list GoValue)
| vstruct (fields : list (string * GoValue)).

(** A non-nil [interface{}]: a dynamic type, of which the code asks its
    kind ([reflect.Value.Kind]), whether the value is nil
    ([reflect.Value.IsNil]) and whether it implements [io.Writer] (then
    [dyn_writer] holds the bytes written to it so far), and the value.
    For a pointer [dyn_val] is what it points to. *)
Record dyn : Type := {
  dyn_kind : Kind;
  dyn_nil : bool;
  dyn_writer : option (list byte);
  dyn_val : GoValue
}.

(** [interface{}]: [None] is the nil interface.  A nil pointer stored in
    an interface is [Some d] with [dyn_kind d = Ptr] and
    [dyn_nil d = true]: it is not equal to nil. *)
Definition any : Type := option dyn.

(** [int64(x)]: the two's complement value of the low 64 bits. *)
Definition int64 (x : Z) : Z := (x + 2 ^ 63) mod 2 ^ 64 - 2 ^ 63.

(** The range of Go's [int] on a 64-bit platform (on a 32-bit one it is
    narrower). *)
Definition int_range (x : Z) : Prop := - 2 ^ 63 <= x < 2 ^ 63.

(** ** fmt.Sprintf *)

(** How the verb [c] prints a string operand: [%s] and [%v] print it as
    it is; a verb that does not apply to a string prints Go's bad-verb
    form.  (The quoting and hexadecimal verbs are not used by the
    package and are not distinguished here.) *)
Definition verb_string (c : ascii) (a : string) : string :=
  if (Ascii.eqb c "s" || Ascii.eqb c "v")%bool then a
  else "%!" +:+ String c ("(string=" +:+ a +:+ ")").

Fixpoint extra_args (args : list string) : string :=
  match args with
  | [] => EmptyString
  | [a] => "string=" +:+ a
  | a :: rest => "string=" +:+ a +:+ ", " +:+ extra_args rest
  end.

(** [fmt.Sprintf] on string operands. *)
Fixpoint Sprintf (format : string) (args : list string) : string :=
  match format with
  | EmptyString =>
      match args with
      | [] => EmptyString
      | _ => "%!(EXTRA " +:+ extra_args args +:+ ")"
      end
  | String c rest =>
      if Ascii.eqb c "%" then
        match rest with
        | EmptyString => "%!(NOVERB)" +:+ Sprintf rest args
        | String v rest' =>
            if Ascii.eqb v "%" then String "%" (Sprintf rest' args)
            else
              match args with
              | [] => "%!" +:+ String v ("(MISSING)" +:+ Sprintf rest' [])
              | a :: args' => verb_string v a +:+ Sprintf rest' args'
              end
        end
      else String c (Sprintf rest args)
  end.

(** ** net/http headers *)

Definition is_lower (c : ascii) : bool :=
  (97 <=? nat_of_ascii c)%nat && (nat_of_ascii c <=? 122)%nat.
Definition is_upper (c : ascii) : bool :=
  (65 <=? nat_of_ascii c)%nat && (nat_of_ascii c <=? 90)%nat.
Definition is_digit (c : ascii) : bool :=
  (48 <=? nat_of_ascii c)%nat && (nat_of_ascii c <=? 57)%nat.

(** The bytes of an HTTP token (RFC 7230). *)
Definition isTokenByte (c : ascii) : bool :=
  is_lower c || is_upper c || is_digit c
  || existsb (Ascii.eqb c)
       ["!"; "#"; "$"; "%"; "&"; "'"; "*"; "+"; "-"; "."; "^"; "_"; "`";
        "|"; "~"]%char.

Fixpoint forall_bytes (p : ascii -> bool) (s : string) : bool :=
  match s with
  | EmptyString => true
  | String c rest => p c && forall_bytes p rest
  end.

Fixpoint canonical_from (upper : bool) (s : string) : string :=
  match s with
  | EmptyString => EmptyString
  | String c rest =>
      let c' :=
        if upper && is_lower c then ascii_of_nat (nat_of_ascii c - 32)
        else if negb upper && is_upper c then ascii_of_nat (nat_of_ascii c + 32)
        else c in
      String c' (canonical_from (Ascii.eqb c' "-") rest)
  end.

(** [textproto.CanonicalMIMEHeaderKey]: the first letter and every letter
    after a hyphen in upper case, the others in lower case; a key that
    holds a byte that is no token byte is left as it is. *)
Definition CanonicalMIMEHeaderKey (s : string) : string :=
  if forall_bytes isTokenByte s then canonical_from true s else s.

(** [http.Header.Set]: the key is made canonical and its values are
    replaced by the one value. *)
Definition Header_Set (h : gmap string (list string)) (key value : string)
  : gmap string (list string) :=
  <[CanonicalMIMEHeaderKey key := [value]]> h.

(** [http.Header.Get]'s view of a key: the values stored under it. *)
Definition Header_Values (h : gmap string (list string)) (key : string)
  : option (list string) :=
  h !! CanonicalMIMEHeaderKey key.

(** [validMethod] of net/http: a non-empty token. *)
Definition validMethod (method : string) : bool :=
  negb (String.eqb method EmptyString) && forall_bytes isTokenByte method.

(** ** Contexts, URLs, requests, responses *)

(** [context.Context], as [Do] sees it when it polls the context after
    the transport has returned: whether the [Done] channel is closed, and
    what [Err] answers (nil until the context is done, then
    [context.Canceled] or [context.DeadlineExceeded]). *)
Record context_Context : Type := {
  ctx_done : bool;
  ctx_err : option liberror
}.

Definition context_Background : context_Context :=
  {| ctx_done := false; ctx_err := None |}.

(** [url.URL]. *)
Record URL : Type := {
  Scheme : string;
  Opaque : string;
  User : option (string * option string);
  Host : string;
  Path : string;
  RawPath : string;
  ForceQuery : bool;
  RawQuery : string;
  Fragment : string
}.

(** [http.Request], with the fields the package sets or hands on.  The
    body is the buffer [NewRequest] encoded, nil for a request without
    one. *)
Record http_Request : Type := {
  req_Method : string;
  req_URL : URL;
  req_Header : gmap string (list string);
  req_Body : option (list byte);
  req_ctx : context_Context
}.

(** A response body ([io.ReadCloser]): reads deliver the [pending] bytes
    and then end, with [io.EOF] when [failure] is [None] and with that
    I/O error otherwise.  The body is the one object of a response that
    changes while the package handles it: it is threaded through the
    functions that read it. *)
Record ReadCloser : Type := {
  pending : list byte;
  failure : option liberror;
  closed : bool
}.

(** [http.Response] without its body (see [ReadCloser]). *)
Record http_Response : Type := {
  resp_StatusCode : Z;
  resp_Header : gmap string (list string);
  resp_Request : http_Request
}.

(** [type Response struct { *http.Response }]. *)
Record Response : Type := {
  Response_http : http_Response
}.

(** [ErrorResponse]: the response that caused the error and the three
    fields [checkResponse] fills. *)
Record ErrorResponse : Type := {
  ErrorResponse_Response : http_Response;
  Code : Z;
  Type_ : string;
  Message : string
}.

(** Go's [error]: a library error, or the package's [*ErrorResponse]. *)
Inductive error : Type :=
| lib_error (e : liberror)
| ErrorResponse_error (e : ErrorResponse).

Coercion lib_error : liberror >-> error.

(** The two results [(x, err)] of a library call: a value and a nil
    error, or an error. *)
Inductive result (A : Type) : Type :=
| Ok (a : A)
| Fail (e : liberror).
Arguments Ok {A} a.
Arguments Fail {A} e.

(** A call that may panic instead of returning. *)
Inductive outcome (A : Type) : Type :=
| Returns (a : A)
| Panics.
Arguments Returns {A} a.
Arguments Panics {A}.

(** [http.Client.Do]: the transport, which answers a request with a
    response and its unread body, or with an error. *)
Definition http_Client : Type :=
  http_Request -> result (http_Response * ReadCloser).

(** What the package asks of the libraries it is built on. *)
Class Library : Type := {
  (** [url.Parse] *)
  url_Parse : string -> result URL;
  (** [url.URL.String] *)
  URL_String : URL -> string;
  (** [url.URL.ResolveReference], whose receiver may be nil; [None]
      when it dereferences a nil receiver *)
  URL_ResolveReference : option URL -> URL -> option URL;
  (** [query.Values] of go-querystring *)
  query_Values : any -> result (gmap string (list string));
  (** [url.Values.Encode] *)
  Values_Encode : gmap string (list string) -> string;
  (** [json.Marshal] *)
  json_Marshal : dyn -> result (list byte);
  (** [json.NewDecoder(body).Decode(v)]: the body as the decoder leaves
      it, the value [v] as it leaves it, and its error *)
  json_Decode : ReadCloser -> dyn -> ReadCloser * dyn * option liberror;
  (** [http.StatusText] *)
  http_StatusText : Z -> string;
  (** the error of [http.NewRequest] for a method that is no token *)
  http_invalidMethod : string -> liberror;
  (** [http.DefaultClient] *)
  http_DefaultClient : http_Client
}.

(** ** Reading a body *)

Definition read_on_closed : liberror :=
  errors_New "http: read on closed response body".

(** How a reading loop sees the end of the body: [io.EOF] ends the loop
    without an error, any other error is the loop's error. *)
Definition read_error (b : ReadCloser) : option liberror :=
  match failure b with
  | Some io_EOF => None
  | Some e => Some e
  | None => None
  end.

(** [ioutil.ReadAll]: the bytes read until the end or the first error (a
    slice that is never nil), and the error, nil at the end of the
    stream. *)
Definition ioutil_ReadAll (b : ReadCloser)
  : option (list byte) * option liberror * ReadCloser :=
  if closed b then (Some [], Some read_on_closed, b)
  else (Some (pending b), read_error b,
        {| pending := []; failure := failure b; closed := false |}).

(** [io.Copy(w, body)] into a writer that takes every byte: what the
    writer holds afterwards, the error (nil at the end of the stream) and
    the body. *)
Definition io_Copy (w : list byte) (b : ReadCloser)
  : list byte * option liberror * ReadCloser :=
  if closed b then (w, Some read_on_closed, b)
  else ((w ++ pending b)%list, read_error b,
        {| pending := []; failure := failure b; closed := false |}).

(** [io.CopyN(ioutil.Discard, body, n)], its results dropped. *)
Definition io_CopyN_Discard (b : ReadCloser) (n : nat) : ReadCloser :=
  if closed b then b
  else {| pending := drop n (pending b); failure := failure b;
          closed := false |}.

Definition Close (b : ReadCloser) : ReadCloser :=
  {| pending := pending b; failure := failure b; closed := true |}.

(** ** net/http's NewRequest *)

Fixpoint last_index (c : ascii) (s : string) (i : Z) (found : Z) : Z :=
  match s with
  | EmptyString => found
  | String d rest => last_index c rest (i + 1) (if Ascii.eqb c d then i else found)
  end.

(** [strings.LastIndex(s, c)] for a one-byte [c], [-1] when absent. *)
Definition strings_LastIndex (s : string) (c : ascii) : Z :=
  last_index c s 0 (-1).

Fixpoint trim_last (s : string) : string :=
  match s with
  | EmptyString => EmptyString
  | String c EmptyString => EmptyString
  | String c rest => String c (trim_last rest)
  end.

Fixpoint last_byte (s : string) : option ascii :=
  match s with
  | EmptyString => None
  | String c EmptyString => Some c
  | String c rest => last_byte rest
  end.

(** [removeEmptyPort]: a host with a port separator and no port loses the
    separator. *)
Definition removeEmptyPort (host : string) : string :=
  if (strings_LastIndex host "]" <? strings_LastIndex host ":")%Z then
    match last_byte host with
    | Some c => if Ascii.eqb c ":" then trim_last host else host
    | None => host
    end
  else host.

Definition URL_with_Host (u : URL) (host : string) : URL :=
  {| Scheme := Scheme u; Opaque := Opaque u; User := User u; Host := host;
     Path := Path u; RawPath := RawPath u; ForceQuery := ForceQuery u;
     RawQuery := RawQuery u; Fragment := Fragment u |}.

Definition URL_with_RawQuery (u : URL) (q : string) : URL :=
  {| Scheme := Scheme u; Opaque := Opaque u; User := User u; Host := Host u;
     Path := Path u; RawPath := RawPath u; ForceQuery := ForceQuery u;
     RawQuery := q; Fragment := Fragment u |}.

(** [http.NewRequest(method, url, body)]: an empty method means GET; the
    request starts with an empty header and the background context. *)
Definition http_NewRequest `{Library} (method url : string)
    (body : option (list byte)) : result http_Request :=
  let method := if String.eqb method EmptyString then "GET" else method in
  if negb (validMethod method) then Fail (http_invalidMethod method)
  else
    match url_Parse url with
    | Fail err => Fail err
    | Ok u =>
        Ok {| req_Method := method;
              req_URL := URL_with_Host u (removeEmptyPort (Host u));
              req_Header := ∅;
              req_Body := body;
              req_ctx := context_Background |}
    end.

(** [req.WithContext(ctx)]: a copy of the request bound to [ctx].  The
    copy shares the header map with the original. *)
Definition WithContext (req : http_Request) (ctx : context_Context)
  : http_Request :=
  {| req_Method := req_Method req; req_URL := req_URL req;
     req_Header := req_Header req; req_Body := req_Body req;
     req_ctx := ctx |}.

(** [req.Header.Set(key, value)]. *)
Definition set_header (req : http_Request) (key value : string)
  : http_Request :=
  {| req_Method := req_Method req; req_URL := req_URL req;
     req_Header := Header_Set (req_Header req) key value;
     req_Body := req_Body req; req_ctx := req_ctx req |}.

(** ** The package *)

(** [Client].  The field [client] is the HTTP client's [Do]; the shared
    [service] value and the [User] and [Group] services, which only point
    back to the client, are left out. *)
Record Client : Type := {
  client : http_Client;
  BaseURL : option URL;
  organisation : string;
  apiToken : string;
  UserAgent : string
}.

(** What [Do] leaves behind: its two results, the value [v] and the
    response body as they are when it returns ([do_body] is [None] when
    the transport gave no response). *)
Record DoResult : Type := {
  do_response : option Response;
  do_err : option error;
  do_v : any;
  do_body : option ReadCloser
}.

Definition baseURL : string := "https://%s.okta.com/".

Definition buildURL (baseURL : string) (args : list string) : string :=
  Sprintf baseURL args.

Definition newResponse (resp : http_Response) : Response :=
  {| Response_http := resp |}.

(** [reflect.ValueOf(opt).Kind()]: the zero [Value] of the nil interface
    has kind [Invalid]. *)
Definition Value_Kind (opt : any) : Kind :=
  match opt with
  | None => Invalid
  | Some d => dyn_kind d
  end.

(** [reflect.ValueOf(opt).IsNil()], which the code calls on pointers
    only. *)
Definition Value_IsNil (opt : any) : bool :=
  match opt with
  | None => false
  | Some d => dyn_nil d
  end.

(** The body's deferred release in [Do]: drain up to 512 bytes, close. *)
Definition drain_and_close (body : ReadCloser) : ReadCloser :=
  Close (io_CopyN_Discard body 512).

Section Package.
Context `{Lib : Library}.

Definition New (apiToken organisation : string) : Client :=
  {| client := http_DefaultClient;
     apiToken := apiToken;
     organisation := organisation;
     UserAgent := EmptyString;
     BaseURL :=
       match url_Parse (buildURL baseURL [organisation]) with
       | Ok u => Some u
       | Fail _ => None
       end |}.

Definition addOptions (s : string) (opt : any) : string * option error :=
  if Kind_eqb (Value_Kind opt) Ptr && Value_IsNil opt then (s, None)
  else
    match url_Parse s with
    | Fail err => (s, Some (lib_error err))
    | Ok u =>
        match query_Values opt with
        | Fail err => (s, Some (lib_error err))
        | Ok qs => (URL_String (URL_with_RawQuery u (Values_Encode qs)), None)
        end
    end.

Definition AddAuthorization (c : Client) (ctx : context_Context)
    (req : http_Request) : http_Request * option error :=
  if negb (String.eqb (apiToken c) EmptyString) then
    (set_header req "Authorization" (Sprintf "SSWS %s" [apiToken c]), None)
  else (req, None).

Definition checkResponse (r : http_Response) (body : ReadCloser)
  : option error * ReadCloser :=
  let c := resp_StatusCode r in
  if (200 <=? c)%Z && (c <=? 299)%Z then (None, body)
  else
    let errorResponse :=
      {| ErrorResponse_Response := r; Code := 0; Type_ := EmptyString;
         Message := EmptyString |} in
    let '(data, err, body) := ioutil_ReadAll body in
    match err, data with
    | None, Some data =>
        (Some (ErrorResponse_error
                 {| ErrorResponse_Response := r;
                    Code := int64 (resp_StatusCode r);
                    Type_ := http_StatusText (resp_StatusCode r);
                    Message := string_of_list_byte data |}), body)
    | _, _ => (Some (ErrorResponse_error errorResponse), body)
    end.

(** The request [Do] hands to the transport. *)
Definition outbound (ctx : context_Context) (req : http_Request)
  : http_Request :=
  let req := WithContext req ctx in
  let req := set_header req "Accept" "application/json" in
  set_header req "Content-Type" "application/json".

Definition with_writer (d : dyn) (w : list byte) : dyn :=
  {| dyn_kind := dyn_kind d; dyn_nil := dyn_nil d; dyn_writer := Some w;
     dyn_val := dyn_val d |}.

Definition Do (c : Client) (ctx : context_Context) (req : http_Request)
    (v : any) : DoResult :=
  let req := outbound ctx req in
  match client c req with
  | Fail err =>
      if ctx_done ctx then
        {| do_response := None; do_err := lib_error <$> ctx_err ctx;
           do_v := v; do_body := None |}
      else
        {| do_response := None; do_err := Some (lib_error err);
           do_v := v; do_body := None |}
  | Ok (resp, body) =>
      let response := newResponse resp in
      let '(err, body) := checkResponse resp body in
      match err with
      | Some _ =>
          {| do_response := Some response; do_err := err; do_v := v;
             do_body := Some (drain_and_close body) |}
      | None =>
          match v with
          | None =>
              {| do_response := Some response; do_err := err; do_v := v;
                 do_body := Some (drain_and_close body) |}
          | Some d =>
              match dyn_writer d with
              | Some w =>
                  let '(w, _, body) := io_Copy w body in
                  {| do_response := Some response; do_err := err;
                     do_v := Some (with_writer d w);
                     do_body := Some (drain_and_close body) |}
              | None =>
                  let '(body, d, err) := json_Decode body d in
                  let err :=
                    match err with
                    | Some io_EOF => None
                    | Some e => Some (lib_error e)
                    | None => None
                    end in
                  {| do_response := Some response; do_err := err;
                     do_v := Some d;
                     do_body := Some (drain_and_close body) |}
              end
          end
      end
  end.

(** [json.NewEncoder(buf).Encode(body)]: the encoding and a newline. *)
Definition json_Encode (body : dyn) : result (list byte) :=
  match json_Marshal body with
  | Fail err => Fail err
  | Ok bs => Ok (bs ++ [x0a])%list
  end.

Definition NewRequest (c : Client) (method urlStr : string) (body : any)
  : outcome (option http_Request * option error) :=
  match url_Parse urlStr with
  | Fail err => Returns (None, Some (lib_error err))
  | Ok rel =>
      match URL_ResolveReference (BaseURL c) rel with
      | None => Panics
      | Some u =>
          let encoded :=
            match body with
            | None => Ok None
            | Some b =>
                match json_Encode b with
                | Fail err => Fail err
                | Ok bs => Ok (Some bs)
                end
            end in
          match encoded with
          | Fail err => Returns (None, Some (lib_error err))
          | Ok buf =>
              match http_NewRequest method (URL_String u) buf with
              | Fail err => Returns (None, Some (lib_error err))
              | Ok req =>
                  let req :=
                    match body with
                    | Some _ => set_header req "Content-Type" "application/json"
                    | None => req
                    end in
                  let req := set_header req "Accept" "application/json" in
                  let req :=
                    if negb (String.eqb (UserAgent c) EmptyString)
                    then set_header req "User-Agent" (UserAgent c)
                    else req in
                  Returns (Some req, None)
              end
          end
      end
  end.

End Package.

(** ** The error's text: ErrorResponse.Error *)

(** An operand of a formatting call: a string (or a value printed by its
    [String] method, given as the text that method returns), or an
    [int]. *)
Inductive operand : Type :=
| op_string (s : string)
| op_int (z : Z).

(** How the verb [c] prints an operand: strings as [verb_string] does; an
    [int] in decimal under [%d] and [%v], and in Go's bad-verb form under
    a verb that is none of the integer verbs.  (The other integer verbs,
    for binary, octal, hexadecimal and characters, are not used by the
    package and are not distinguished here.) *)
Definition verb_operand (c : ascii) (a : operand) : string :=
  match a with
  | op_string s => verb_string c s
  | op_int z =>
      if (Ascii.eqb c "d" || Ascii.eqb c "v")%bool then pretty z
      else "%!" +:+ String c ("(int=" +:+ pretty z +:+ ")")
  end.

Definition extra_operand (a : operand) : string :=
  match a with
  | op_string s => "string=" +:+ s
  | op_int z => "int=" +:+ pretty z
  end.

Fixpoint extra_operands (args : list operand) : string :=
  match args with
  | [] => EmptyString
  | [a] => extra_operand a
  | a :: rest => extra_operand a +:+ ", " +:+ extra_operands rest
  end.

(** [fmt.Sprintf] on strings and integers: [Sprintf] with the operands
    typed. *)
Fixpoint Sprintf_operands (format : string) (args : list operand) : string :=
  match format with
  | EmptyString =>
      match args with
      | [] => EmptyString
      | _ => "%!(EXTRA " +:+ extra_operands args +:+ ")"
      end
  | String c rest =>
      if Ascii.eqb c "%" then
        match rest with
        | EmptyString => "%!(NOVERB)" +:+ Sprintf_operands rest args
        | String v rest' =>
            if Ascii.eqb v "%" then String "%" (Sprintf_operands rest' args)
            else
              match args with
              | [] =>
                  "%!" +:+ String v ("(MISSING)" +:+ Sprintf_operands rest' [])
              | a :: args' => verb_operand v a +:+ Sprintf_operands rest' args'
              end
        end
      else String c (Sprintf_operands rest args)
  end.

(** [(r *ErrorResponse) Error()].  The code it prints is the status code
    of the response, not the field [Code]; the URL is printed by its
    [String] method. *)
Definition Error `{Library} (r : ErrorResponse) : string :=
  Sprintf_operands
    "%v %v: Okta responsed with code %d, type %v and message %v"
    [op_string (req_Method (resp_Request (ErrorResponse_Response r)));
     op_string
       (URL_String (req_URL (resp_Request (ErrorResponse_Response r))));
     op_int (resp_StatusCode (ErrorResponse_Response r));
     op_string (Type_ r);
     op_string (Message r)].

(** ** The construction of the specification *)

(** The construction as the specification words it, for comparison with
    [New]: the parse error of the origin is the error of the
    construction. *)
Definition New_propagating `{Library} (apiToken organisation : string)
  : result Client :=
  match url_Parse (buildURL baseURL [organisation]) with
  | Fail err => Fail err
  | Ok u =>
      Ok {| client := http_DefaultClient; BaseURL := Some u;
            organisation := organisation; apiToken := apiToken;
            UserAgent := EmptyString |}
  end.

(** ** The contract of the JSON decoder *)

(** What [Do] relies on when it swallows [io.EOF]: a decoder that finds
    its stream at its end before any byte of a value returns [io.EOF]
    and does not touch the destination.  (encoding/json reads the value
    first and looks at the destination afterwards.) *)
Definition Decode_EOF_on_empty `{Library} : Prop :=
  forall (body : ReadCloser) (d : dyn),
    closed body = false -> pending body = [] -> failure body = None ->
    snd (json_Decode body d) = Some io_EOF /\
    snd (fst (json_Decode body d)) = d.

(** A decoder whose first read fails returns the error of the read. *)
Definition Decode_read_error `{Library} : Prop :=
  forall (body : ReadCloser) (d : dyn) (e : liberror),
    closed body = false -> pending body = [] -> failure body = Some e ->
    snd (json_Decode body d) = Some e.

(** ** A stub of the libraries

    The examples below run the package against this stub, in the way the
    package's tests run it against a test server.  On the inputs the
    examples use it answers as the libraries do; elsewhere it answers
    with an error of its own. *)

Module Stub.

Definition unknown : liberror := errors_New "stub: no answer recorded".

(** net/url refuses a string that holds an ASCII control byte. *)
Definition isCTL (c : ascii) : bool :=
  (nat_of_ascii c <? 32)%nat || (nat_of_ascii c =? 127)%nat.

Definition invalid_control_character : liberror :=
  errors_New "net/url: invalid control character in URL".

Definition plain_URL (scheme host path : string) : URL :=
  {| Scheme := scheme; Opaque := EmptyString; User := None; Host := host;
     Path := path; RawPath := EmptyString; ForceQuery := false;
     RawQuery := EmptyString; Fragment := EmptyString |}.

Definition origin_acme : URL := plain_URL "https" "acme.okta.com" "/".
Definition users_42_rel : URL := plain_URL EmptyString EmptyString "users/42".
Definition users_42_abs : URL := plain_URL "https" "acme.okta.com" "/users/42".

Definition Parse (s : string) : result URL :=
  if negb (forall_bytes (fun c => negb (isCTL c)) s)
  then Fail invalid_control_character
  else if String.eqb s "https://acme.okta.com/" then Ok origin_acme
  else if String.eqb s "users/42" then Ok users_42_rel
  else if String.eqb s "https://acme.okta.com/users/42" then Ok users_42_abs
  else Fail unknown.

(** The text of a URL without user information, opaque part or fragment,
    whose parts need no escaping. *)
Definition URL_text (u : URL) : string :=
  (if String.eqb (Scheme u) EmptyString then EmptyString
   else Scheme u +:+ "://")
  +:+ Host u +:+ Path u
  +:+ (if String.eqb (RawQuery u) EmptyString then EmptyString
       else "?" +:+ RawQuery u).

Definition has_prefix_slash (s : string) : bool :=
  match s with
  | String c _ => Ascii.eqb c "/"
  | EmptyString => false
  end.

(** Resolution of a path without dot segments against an origin whose
    path is the root.  A reference without a scheme reads the scheme of
    the receiver: on a nil receiver that is a nil dereference. *)
Definition ResolveReference (base : option URL) (ref : URL) : option URL :=
  if negb (String.eqb (Scheme ref) EmptyString) then Some ref
  else
    match base with
    | None => None
    | Some b =>
        Some (plain_URL (Scheme b) (Host b)
                (if has_prefix_slash (Path ref) then Path ref
                 else "/" +:+ Path ref))
    end.

(** go-querystring gives no values for a nil interface and for a nil
    pointer. *)
Definition Values (opt : any) : result (gmap string (list string)) :=
  match opt with
  | None => Ok ∅
  | Some d =>
      if Kind_eqb (dyn_kind d) Ptr && dyn_nil d then Ok ∅ else Fail unknown
  end.

(** The stub hands out empty sets of values only; their encoding is the
    empty string. *)
Definition Encode (qs : gmap string (list string)) : string :=
  EmptyString.

(** The JSON text of the three literals. *)
Definition Marshal (d : dyn) : result (list byte) :=
  match dyn_val d with
  | vnull => Ok (list_byte_of_string "null")
  | vbool true => Ok (list_byte_of_string "true")
  | vbool false => Ok (list_byte_of_string "false")
  | _ => Fail unknown
  end.

Definition drained (body : ReadCloser) : ReadCloser :=
  {| pending := []; failure := failure body; closed := closed body |}.

Definition with_val (d : dyn) (x : GoValue) : dyn :=
  {| dyn_kind := dyn_kind d; dyn_nil := dyn_nil d;
     dyn_writer := dyn_writer d; dyn_val := x |}.

(** The decoder on a stream that ends, or fails, before any byte, and on
    the literals [true] and [false] decoded through a pointer to a
    bool. *)
Definition Decode (body : ReadCloser) (d : dyn)
  : ReadCloser * dyn * option liberror :=
  if closed body then (body, d, Some read_on_closed)
  else
    match pending body with
    | [] =>
        (body, d, Some (match failure body with
                        | Some e => e
                        | None => io_EOF
                        end))
    | bs =>
        match dyn_kind d, dyn_nil d, dyn_val d with
        | Ptr, false, vbool _ =>
            if String.eqb (string_of_list_byte bs) "true"
            then (drained body, with_val d (vbool true), None)
            else if String.eqb (string_of_list_byte bs) "false"
            then (drained body, with_val d (vbool false), None)
            else (drained body, d, Some unknown)
        | _, _, _ => (drained body, d, Some unknown)
        end
    end.

(** Some entries of net/http's table of status texts. *)
Definition StatusText (code : Z) : string :=
  if (code =? 200)%Z then "OK"
  else if (code =? 201)%Z then "Created"
  else if (code =? 204)%Z then "No Content"
  else if (code =? 401)%Z then "Unauthorized"
  else if (code =? 404)%Z then "Not Found"
  else if (code =? 500)%Z then "Internal Server Error"
  else EmptyString.

Definition invalidMethod (method : string) : liberror :=
  errors_New ("net/http: invalid method " +:+ method).

(** A default client without a network. *)
Definition DefaultClient : http_Client :=
  fun _ => Fail (errors_New "dial tcp: network is unreachable").

#[global] Instance library : Library := {|
  url_Parse := Parse;
  URL_String := URL_text;
  URL_ResolveReference := ResolveReference;
  query_Values := Values;
  Values_Encode := Encode;
  json_Marshal := Marshal;
  json_Decode := Decode;
  http_StatusText := StatusText;
  http_invalidMethod := invalidMethod;
  http_DefaultClient := DefaultClient
|}.

(** A transport that answers every request with the given status and
    body, and one that fails with the given error. *)
Definition answering (status : Z) (body : ReadCloser) : http_Client :=
  fun req =>
    Ok ({| resp_StatusCode := status; resp_Header := ∅;
           resp_Request := req |}, body).

Definition failing (err : liberror) : http_Client :=
  fun _ => Fail err.

Definition body_of (text : string) : ReadCloser :=
  {| pending := list_byte_of_string text; failure := None; closed := false |}.

(** A body whose first read fails. *)
Definition broken_body (err : liberror) : ReadCloser :=
  {| pending := []; failure := Some err; closed := false |}.

Definition connection_reset : liberror :=
  errors_New "read: connection reset by peer".

Definition client_with (transport : http_Client) : Client :=
  {| client := transport; BaseURL := Some origin_acme;
     organisation := "acme"; apiToken := "tok123";
     UserAgent := EmptyString |}.

Definition canceled : context_Context :=
  {| ctx_done := true; ctx_err := Some context_Canceled |}.

Definition get_users_42 : http_Request :=
  {| req_Method := "GET"; req_URL := users_42_abs; req_Header := ∅;
     req_Body := None; req_ctx := context_Background |}.

(** The answer to [get_users_42] with the given status. *)
Definition response (status : Z) : http_Response :=
  {| resp_StatusCode := status; resp_Header := ∅;
     resp_Request := get_users_42 |}.

(** A body that delivers [text] and then fails. *)
Definition cut_body (text : string) (err : liberror) : ReadCloser :=
  {| pending := list_byte_of_string text; failure := Some err;
     closed := false |}.

(** A nil pointer to a struct of options, stored in an interface. *)
Definition nil_options : dyn :=
  {| dyn_kind := Ptr; dyn_nil := true; dyn_writer := None;
     dyn_val := vnull |}.

(** A pointer to a bool that holds [b]. *)
Definition bool_pointer (b : bool) : dyn :=
  {| dyn_kind := Ptr; dyn_nil := false; dyn_writer := None;
     dyn_val := vbool b |}.

(** A pointer to a buffer ([io.Writer]) that holds [w]. *)
Definition buffer (w : list byte) : dyn :=
  {| dyn_kind := Ptr; dyn_nil := false; dyn_writer := Some w;
     dyn_val := vnull |}.

(** An organisation name with a line feed in it. *)
Definition bad_organisation : string :=
  "ac" +:+ String (ascii_of_nat 10) "me".

End Stub.

(** * Properties *)

(** ** Formatting and header keys *)

Lemma int64_id (x : Z) : int_range x -> int64 x = x.
Proof.
  unfold int_range, int64. intros Hx.
  rewrite Z.mod_small by lia. lia.
Qed.

Lemma buildURL_baseURL (organisation : string) :
  buildURL baseURL [organisation] = "https://" +:+ organisation +:+ ".okta.com/".
Proof.
  unfold buildURL, baseURL. reflexivity.
Qed.

Lemma append_empty (s : string) : s +:+ EmptyString = s.
Proof.
  induction s as [|c s IH]; [reflexivity|].
  change (String c (s +:+ EmptyString) = String c s).
  now f_equal.
Qed.

Lemma Sprintf_SSWS (token : string) :
  Sprintf "SSWS %s" [token] = "SSWS " +:+ token.
Proof.
  change (Sprintf "SSWS %s" [token]) with ("SSWS " +:+ (token +:+ EmptyString)).
  now rewrite append_empty.
Qed.

Lemma canonical_Authorization :
  CanonicalMIMEHeaderKey "Authorization" = "Authorization".
Proof. reflexivity. Qed.

Lemma canonical_Accept : CanonicalMIMEHeaderKey "Accept" = "Accept".
Proof. reflexivity. Qed.

Lemma canonical_Content_Type :
  CanonicalMIMEHeaderKey "Content-Type" = "Content-Type".
Proof. reflexivity. Qed.

Lemma canonical_User_Agent :
  CanonicalMIMEHeaderKey "User-Agent" = "User-Agent".
Proof. reflexivity. Qed.

(** The canonical form is what a lower-case spelling is stored under. *)
Example canonical_lower_case :
  CanonicalMIMEHeaderKey "content-type" = "Content-Type".
Proof. reflexivity. Qed.

(** ** The response interpreter: checkResponse *)

Section Interpreter.
Context `{Lib : Library}.

Lemma status_test (c : Z) :
  ((200 <=? c)%Z && (c <=? 299)%Z) = true <-> 200 <= c <= 299.
Proof.
  rewrite andb_true_iff, !Z.leb_le. tauto.
Qed.

Lemma checkResponse_success (r : http_Response) (body : ReadCloser) :
  200 <= resp_StatusCode r <= 299 -> checkResponse r body = (None, body).
Proof.
  intros Hc. unfold checkResponse.
  apply status_test in Hc. now rewrite Hc.
Qed.

(** Outside the success range the result is an [*ErrorResponse] for the
    response at hand, whatever the body does. *)
Lemma checkResponse_failure (r : http_Response) (body : ReadCloser) :
  ~ 200 <= resp_StatusCode r <= 299 ->
  exists e, fst (checkResponse r body) = Some (ErrorResponse_error e) /\
            ErrorResponse_Response e = r.
Proof.
  intros Hc. unfold checkResponse.
  destruct ((200 <=? resp_StatusCode r)%Z && (resp_StatusCode r <=? 299)%Z)
    eqn:Ht.
  - apply status_test in Ht. contradiction.
  - destruct (ioutil_ReadAll body) as [[data err] body'].
    destruct err as [e|]; [|destruct data as [bs|]]; cbn; eauto.
Qed.

(** When the body is read to its end the three fields are filled from
    the status and the body. *)
Lemma checkResponse_filled (r : http_Response) (body body' : ReadCloser)
    (data : list byte) :
  ~ 200 <= resp_StatusCode r <= 299 ->
  ioutil_ReadAll body = (Some data, None, body') ->
  checkResponse r body =
    (Some (ErrorResponse_error
             {| ErrorResponse_Response := r;
                Code := int64 (resp_StatusCode r);
                Type_ := http_StatusText (resp_StatusCode r);
                Message := string_of_list_byte data |}), body').
Proof.
  intros Hc Hread. unfold checkResponse.
  destruct ((200 <=? resp_StatusCode r)%Z && (resp_StatusCode r <=? 299)%Z)
    eqn:Ht.
  - apply status_test in Ht. contradiction.
  - now rewrite Hread.
Qed.

(** [ioutil.ReadAll] never returns a nil slice. *)
Lemma ReadAll_not_nil (body : ReadCloser) :
  exists data, fst (fst (ioutil_ReadAll body)) = Some data.
Proof.
  unfold ioutil_ReadAll. destruct (closed body); cbn; eauto.
Qed.

(** C1, as amended: [checkResponse] returns a nil error exactly for the
    status codes 200 to 299; for any other status code it returns a
    non-nil [*ErrorResponse], and the [Code] of that error is the status
    code whenever the response body was read without an error. *)
Theorem checkResponse_classifies (r : http_Response) (body : ReadCloser) :
  int_range (resp_StatusCode r) ->
  (fst (checkResponse r body) = None <-> 200 <= resp_StatusCode r <= 299) /\
  (~ 200 <= resp_StatusCode r <= 299 ->
   exists e, fst (checkResponse r body) = Some (ErrorResponse_error e) /\
             (snd (fst (ioutil_ReadAll body)) = None ->
              Code e = resp_StatusCode r)).
Proof.
  intros Hint. split.
  - split.
    + intros Hnil.
      destruct (decide (200 <= resp_StatusCode r <= 299)) as [Hc|Hc]; [exact Hc|].
      destruct (checkResponse_failure r body Hc) as (e & He & _).
      rewrite He in Hnil. discriminate.
    + intros Hc. now rewrite checkResponse_success.
  - intros Hc.
    destruct (ioutil_ReadAll body) as [[data err] body'] eqn:Hread.
    destruct err as [e|].
    + destruct (checkResponse_failure r body Hc) as (e' & He' & _).
      exists e'. split; [exact He'|]. cbn. discriminate.
    + destruct (ReadAll_not_nil body) as [bs Hbs].
      rewrite Hread in Hbs. cbn in Hbs. subst data.
      rewrite (checkResponse_filled r body body' bs Hc Hread).
      eexists. split; [reflexivity|].
      intros _. cbn. now apply int64_id.
Qed.

(** C10: when the status is outside 200 to 299 and the body cannot be
    read, [checkResponse] still returns a non-nil [*ErrorResponse], with
    [Code], [Type] and [Message] at their zero values. *)
Theorem checkResponse_unreadable_body (r : http_Response) (body : ReadCloser)
    (e : liberror) :
  ~ 200 <= resp_StatusCode r <= 299 ->
  snd (fst (ioutil_ReadAll body)) = Some e ->
  fst (checkResponse r body) =
    Some (ErrorResponse_error
            {| ErrorResponse_Response := r; Code := 0;
               Type_ := EmptyString; Message := EmptyString |}).
Proof.
  intros Hc Hread. unfold checkResponse.
  destruct ((200 <=? resp_StatusCode r)%Z && (resp_StatusCode r <=? 299)%Z)
    eqn:Ht.
  - apply status_test in Ht. contradiction.
  - destruct (ioutil_ReadAll body) as [[data err] body'].
    cbn in Hread. subst err. reflexivity.
Qed.

End Interpreter.

(** ** Dispatch: Do *)

Section Dispatch.
Context `{Lib : Library}.

(** The two headers [Do] sets on every request before it hands it to the
    transport; method, URL and body are those of the request. *)
Lemma outbound_headers (ctx : context_Context) (req : http_Request) :
  Header_Values (req_Header (outbound ctx req)) "Accept"
    = Some ["application/json"] /\
  Header_Values (req_Header (outbound ctx req)) "Content-Type"
    = Some ["application/json"] /\
  req_Body (outbound ctx req) = req_Body req /\
  req_ctx (outbound ctx req) = ctx.
Proof.
  unfold outbound, set_header, WithContext, Header_Values, Header_Set. cbn.
  rewrite canonical_Accept, canonical_Content_Type.
  repeat split.
  - rewrite lookup_insert_ne by discriminate. apply lookup_insert_eq.
  - apply lookup_insert_eq.
Qed.

(** Without a response there is nothing to read: the transport's error
    comes back as it is while the context is live. *)
Lemma Do_transport_error (c : Client) (ctx : context_Context)
    (req : http_Request) (v : any) (err : liberror) :
  client c (outbound ctx req) = Fail err ->
  ctx_done ctx = false ->
  Do c ctx req v =
    {| do_response := None; do_err := Some (lib_error err); do_v := v;
       do_body := None |}.
Proof.
  intros Hsend Hlive. unfold Do. now rewrite Hsend, Hlive.
Qed.

(** C2: when the transport fails and the context is done, [Do] returns
    no response and the context's error [ctx.Err()], whatever error the
    transport reported. *)
Theorem Do_context_done (c : Client) (ctx : context_Context)
    (req : http_Request) (v : any) (err : liberror) :
  client c (outbound ctx req) = Fail err ->
  ctx_done ctx = true ->
  do_response (Do c ctx req v) = None /\
  do_err (Do c ctx req v) = lib_error <$> ctx_err ctx.
Proof.
  intros Hsend Hdone. unfold Do. rewrite Hsend, Hdone. now split.
Qed.

(** C3: when the transport answers with a status outside 200 to 299,
    [Do] returns the [Response] that wraps the answer (status and headers
    included) together with a non-nil [*ErrorResponse] for the same
    answer. *)
Theorem Do_error_keeps_response (c : Client) (ctx : context_Context)
    (req : http_Request) (v : any) (resp : http_Response)
    (body : ReadCloser) :
  client c (outbound ctx req) = Ok (resp, body) ->
  ~ 200 <= resp_StatusCode resp <= 299 ->
  exists e,
    do_response (Do c ctx req v) = Some (newResponse resp) /\
    do_err (Do c ctx req v) = Some (ErrorResponse_error e) /\
    ErrorResponse_Response e = resp.
Proof.
  intros Hsend Hc. unfold Do. rewrite Hsend.
  destruct (checkResponse_failure resp body Hc) as (e & He & Hresp).
  destruct (checkResponse resp body) as [err body'].
  cbn in He. subst err. cbn. eauto.
Qed.

(** C7: on a status of 200 to 299 with an empty body, a destination that
    is not nil and no [io.Writer] comes back as it was, with a nil
    error.  The decoder is asked for what encoding/json does at the end
    of a stream ([Decode_EOF_on_empty]). *)
Theorem Do_empty_body (c : Client) (ctx : context_Context)
    (req : http_Request) (d : dyn) (resp : http_Response)
    (body : ReadCloser) :
  Decode_EOF_on_empty ->
  client c (outbound ctx req) = Ok (resp, body) ->
  200 <= resp_StatusCode resp <= 299 ->
  closed body = false -> pending body = [] -> failure body = None ->
  dyn_writer d = None ->
  do_err (Do c ctx req (Some d)) = None /\
  do_v (Do c ctx req (Some d)) = Some d.
Proof.
  intros Hdec Hsend Hc Hopen Hempty Hend Hw. unfold Do.
  rewrite Hsend, (checkResponse_success resp body Hc), Hw.
  destruct (Hdec body d Hopen Hempty Hend) as [Herr Hd].
  destruct (json_Decode body d) as [[body' d'] err].
  cbn in Herr, Hd. subst err d'. now split.
Qed.

(** The byte-sink branch: whatever the copy runs into, [Do] returns the
    nil error it got from [checkResponse]. *)
Lemma Do_writer_returns_nil (c : Client) (ctx : context_Context)
    (req : http_Request) (d : dyn) (w : list byte) (resp : http_Response)
    (body : ReadCloser) :
  client c (outbound ctx req) = Ok (resp, body) ->
  200 <= resp_StatusCode resp <= 299 ->
  dyn_writer d = Some w ->
  do_err (Do c ctx req (Some d)) = None.
Proof.
  intros Hsend Hc Hw. unfold Do.
  rewrite Hsend, (checkResponse_success resp body Hc), Hw.
  now destruct (io_Copy w body) as [[w' err] body'].
Qed.

(** The decoding branch: an error of the first read that is not [io.EOF]
    is the error [Do] returns. *)
Lemma Do_decode_read_error (c : Client) (ctx : context_Context)
    (req : http_Request) (d : dyn) (resp : http_Response)
    (body : ReadCloser) (e : liberror) :
  Decode_read_error ->
  client c (outbound ctx req) = Ok (resp, body) ->
  200 <= resp_StatusCode resp <= 299 ->
  closed body = false -> pending body = [] -> failure body = Some e ->
  e <> io_EOF ->
  dyn_writer d = None ->
  do_err (Do c ctx req (Some d)) = Some (lib_error e).
Proof.
  intros Hdec Hsend Hc Hopen Hempty Hfail Hne Hw. unfold Do.
  rewrite Hsend, (checkResponse_success resp body Hc), Hw.
  pose proof (Hdec body d e Hopen Hempty Hfail) as Herr.
  destruct (json_Decode body d) as [[body' d'] err].
  cbn in Herr. subst err. cbn. now destruct e.
Qed.

End Dispatch.

(** ** Construction: New, addOptions, NewRequest, AddAuthorization *)

Section Construction.
Context `{Lib : Library}.

(** C6, as amended: [New] substitutes the organisation into the fixed
    template and parses the result.  It has one result, the client, and
    no error: when the string is a URL the client's [BaseURL] is its
    parse, and when it is not the parse error is dropped and [BaseURL]
    stays nil. *)
Theorem New_never_fails (token org : string) :
  apiToken (New token org) = token /\
  organisation (New token org) = org /\
  BaseURL (New token org) =
    match url_Parse ("https://" +:+ org +:+ ".okta.com/") with
    | Ok u => Some u
    | Fail _ => None
    end.
Proof.
  split; [reflexivity|]. split; [reflexivity|].
  unfold New. cbn [BaseURL].
  now rewrite buildURL_baseURL.
Qed.

(** Where the origin parses, [New] and the propagating construction
    agree. *)
Lemma New_propagating_Ok (token org : string) (u : URL) :
  url_Parse (buildURL baseURL [org]) = Ok u ->
  New_propagating token org = Ok (New token org).
Proof.
  intros Hparse. unfold New_propagating, New. now rewrite Hparse.
Qed.

(** C4: with a nil pointer in [opt], [addOptions] returns the path as it
    is and a nil error. *)
Theorem addOptions_nil_pointer (s : string) (opt : dyn) :
  dyn_kind opt = Ptr -> dyn_nil opt = true ->
  addOptions s (Some opt) = (s, None).
Proof.
  intros Hkind Hnil. unfold addOptions. cbn.
  now rewrite Hkind, Hnil.
Qed.

(** The nil interface is no nil pointer: [addOptions] goes on to parse
    the path. *)
Lemma addOptions_nil_interface (s : string) :
  addOptions s None =
    match url_Parse s with
    | Fail err => (s, Some (lib_error err))
    | Ok u =>
        match query_Values None with
        | Fail err => (s, Some (lib_error err))
        | Ok qs => (URL_String (URL_with_RawQuery u (Values_Encode qs)), None)
        end
    end.
Proof. reflexivity. Qed.

(** C9: with a token configured, [AddAuthorization] sets the header
    [Authorization] to the one value [SSWS ] followed by the token and
    changes nothing else of the request; without a token it leaves the
    request as it is.  Its error is nil either way. *)
Theorem AddAuthorization_header (c : Client) (ctx : context_Context)
    (req : http_Request) :
  snd (AddAuthorization c ctx req) = None /\
  (apiToken c <> EmptyString ->
   fst (AddAuthorization c ctx req) =
     {| req_Method := req_Method req; req_URL := req_URL req;
        req_Header :=
          <["Authorization" := ["SSWS " +:+ apiToken c]]> (req_Header req);
        req_Body := req_Body req; req_ctx := req_ctx req |}) /\
  (apiToken c = EmptyString -> fst (AddAuthorization c ctx req) = req).
Proof.
  unfold AddAuthorization.
  destruct (String.eqb (apiToken c) EmptyString) eqn:Htok; cbn [negb fst snd].
  - apply String.eqb_eq in Htok.
    split; [reflexivity|]. split; [|reflexivity].
    intros Hne. contradiction.
  - apply String.eqb_neq in Htok.
    split; [reflexivity|]. split; [|intros He; contradiction].
    intros _. unfold set_header, Header_Set.
    now rewrite canonical_Authorization, Sprintf_SSWS.
Qed.

(** A request built by [http.NewRequest] starts without headers. *)
Lemma http_NewRequest_fresh (method url : string) (buf : option (list byte))
    (req : http_Request) :
  http_NewRequest method url buf = Ok req ->
  req_Header req = ∅ /\ req_Body req = buf.
Proof.
  unfold http_NewRequest. intros Hreq.
  destruct (negb _); [discriminate|].
  destruct (url_Parse url); [|discriminate].
  injection Hreq as <-. now split.
Qed.

(** Lookups in a header built by a few [Set]s on distinct keys. *)
Ltac header_lookup :=
  unfold Header_Values, set_header, Header_Set; cbn [req_Header];
  rewrite ?canonical_Accept, ?canonical_Content_Type, ?canonical_User_Agent;
  repeat first [ rewrite lookup_insert_eq
               | rewrite lookup_insert_ne by discriminate
               | rewrite lookup_empty ];
  try reflexivity.

(** The headers of a request as [NewRequest] builds it: [Accept] always,
    [Content-Type] exactly when a body is given. *)
Lemma NewRequest_headers (c : Client) (method urlStr : string) (body : any)
    (req : http_Request) :
  NewRequest c method urlStr body = Returns (Some req, None) ->
  Header_Values (req_Header req) "Accept" = Some ["application/json"] /\
  Header_Values (req_Header req) "Content-Type" =
    match body with
    | Some _ => Some ["application/json"]
    | None => None
    end /\
  (body = None -> req_Body req = None).
Proof.
  unfold NewRequest. intros Hreq.
  destruct (url_Parse urlStr) as [rel|]; [|discriminate].
  destruct (URL_ResolveReference (BaseURL c) rel) as [u|]; [|discriminate].
  destruct body as [b|].
  - destruct (json_Encode b) as [bs|]; [|discriminate].
    destruct (http_NewRequest method (URL_String u) (Some bs)) as [r|] eqn:Hr;
      [|discriminate].
    apply http_NewRequest_fresh in Hr as [Hh _].
    injection Hreq as <-.
    destruct (negb _);
      (split; [|split; [|discriminate]]); header_lookup.
  - destruct (http_NewRequest method (URL_String u) None) as [r|] eqn:Hr;
      [|discriminate].
    apply http_NewRequest_fresh in Hr as [Hh Hb].
    injection Hreq as <-.
    destruct (negb _);
      (split; [|split; [|intros _; exact Hb]]); header_lookup;
      rewrite Hh; apply lookup_empty.
Qed.

End Construction.

(** * The package against the stub *)

(** The stub's decoder keeps the contract [Do] relies on. *)
Lemma Stub_Decode_EOF_on_empty : Decode_EOF_on_empty.
Proof.
  intros body d Hopen Hempty Hend. cbn. unfold Stub.Decode.
  now rewrite Hopen, Hempty, Hend.
Qed.

Lemma Stub_Decode_read_error : Decode_read_error.
Proof.
  intros body d e Hopen Hempty Hfail. cbn. unfold Stub.Decode.
  now rewrite Hopen, Hempty, Hfail.
Qed.

(** ** checkResponse *)

(** A 404 with a body: the error carries the status, its text and the
    body as it came. *)
Example checkResponse_404 :
  fst (checkResponse (Stub.response 404) (Stub.body_of "not found")) =
    Some (ErrorResponse_error
            {| ErrorResponse_Response := Stub.response 404; Code := 404;
               Type_ := "Not Found"; Message := "not found" |}).
Proof. reflexivity. Qed.

Lemma checkResponse_classifies_witness :
  int_range (resp_StatusCode (Stub.response 404)) /\
  (fst (checkResponse (Stub.response 404) (Stub.body_of "not found")) = None
     <-> 200 <= resp_StatusCode (Stub.response 404) <= 299) /\
  (~ 200 <= resp_StatusCode (Stub.response 404) <= 299 ->
   exists e,
     fst (checkResponse (Stub.response 404) (Stub.body_of "not found"))
       = Some (ErrorResponse_error e) /\
     (snd (fst (ioutil_ReadAll (Stub.body_of "not found"))) = None ->
      Code e = resp_StatusCode (Stub.response 404))).
Proof.
  split; [unfold int_range; cbn; lia|].
  apply checkResponse_classifies. unfold int_range. cbn. lia.
Defined.

(** C1 as stated fails: a 500 whose body cannot be read gives an error
    whose [Code] is 0, not 500. *)
Lemma checkResponse_code_counterexample :
  exists e,
    fst (checkResponse (Stub.response 500)
           (Stub.broken_body Stub.connection_reset))
      = Some (ErrorResponse_error e) /\
    resp_StatusCode (Stub.response 500) = 500 /\
    Code e = 0 /\
    Code e <> resp_StatusCode (Stub.response 500).
Proof.
  eexists. split; [reflexivity|]. cbn. repeat split. discriminate.
Qed.

Lemma checkResponse_unreadable_body_witness :
  ~ 200 <= resp_StatusCode (Stub.response 500) <= 299 /\
  snd (fst (ioutil_ReadAll (Stub.broken_body Stub.connection_reset)))
    = Some Stub.connection_reset /\
  fst (checkResponse (Stub.response 500)
         (Stub.broken_body Stub.connection_reset)) =
    Some (ErrorResponse_error
            {| ErrorResponse_Response := Stub.response 500; Code := 0;
               Type_ := EmptyString; Message := EmptyString |}).
Proof.
  assert (Hc : ~ 200 <= resp_StatusCode (Stub.response 500) <= 299)
    by (cbn; lia).
  split; [exact Hc|]. split; [reflexivity|].
  exact (checkResponse_unreadable_body (Stub.response 500)
           (Stub.broken_body Stub.connection_reset) Stub.connection_reset
           Hc eq_refl).
Defined.

(** ** Do *)

Lemma Do_context_done_witness :
  client (Stub.client_with (Stub.failing Stub.connection_reset))
    (outbound Stub.canceled Stub.get_users_42) = Fail Stub.connection_reset /\
  ctx_done Stub.canceled = true /\
  do_response (Do (Stub.client_with (Stub.failing Stub.connection_reset))
                 Stub.canceled Stub.get_users_42 None) = None /\
  do_err (Do (Stub.client_with (Stub.failing Stub.connection_reset))
            Stub.canceled Stub.get_users_42 None)
    = lib_error <$> ctx_err Stub.canceled.
Proof.
  split; [reflexivity|]. split; [reflexivity|].
  exact (Do_context_done
           (Stub.client_with (Stub.failing Stub.connection_reset))
           Stub.canceled Stub.get_users_42 None Stub.connection_reset
           eq_refl eq_refl).
Defined.

(** The error that comes back is the cancellation, not the reset. *)
Example Do_canceled :
  do_err (Do (Stub.client_with (Stub.failing Stub.connection_reset))
            Stub.canceled Stub.get_users_42 None)
    = Some (lib_error context_Canceled).
Proof. reflexivity. Qed.

(** With a live context the reset itself comes back. *)
Example Do_connection_reset :
  do_err (Do (Stub.client_with (Stub.failing Stub.connection_reset))
            context_Background Stub.get_users_42 None)
    = Some (lib_error Stub.connection_reset).
Proof. reflexivity. Qed.

Lemma Do_error_keeps_response_witness :
  exists e,
    do_response
      (Do (Stub.client_with (Stub.answering 404 (Stub.body_of "not found")))
          context_Background Stub.get_users_42 None)
      = Some (newResponse
                {| resp_StatusCode := 404; resp_Header := ∅;
                   resp_Request :=
                     outbound context_Background Stub.get_users_42 |}) /\
    do_err
      (Do (Stub.client_with (Stub.answering 404 (Stub.body_of "not found")))
          context_Background Stub.get_users_42 None)
      = Some (ErrorResponse_error e) /\
    ErrorResponse_Response e =
      {| resp_StatusCode := 404; resp_Header := ∅;
         resp_Request := outbound context_Background Stub.get_users_42 |}.
Proof.
  apply (Do_error_keeps_response
           (Stub.client_with (Stub.answering 404 (Stub.body_of "not found")))
           context_Background Stub.get_users_42 None
           {| resp_StatusCode := 404; resp_Header := ∅;
              resp_Request := outbound context_Background Stub.get_users_42 |}
           (Stub.body_of "not found")).
  - reflexivity.
  - cbn. lia.
Defined.

(** The 404 of the specification's scenario, with the fields of the
    error spelled out. *)
Example Do_404 :
  exists resp e,
    Do (Stub.client_with (Stub.answering 404 (Stub.body_of "not found")))
       context_Background Stub.get_users_42 None
      = {| do_response := Some resp;
           do_err := Some (ErrorResponse_error e);
           do_v := None;
           do_body := Some {| pending := []; failure := None;
                              closed := true |} |} /\
    resp_StatusCode (Response_http resp) = 404 /\
    Code e = 404 /\ Type_ e = "Not Found" /\ Message e = "not found".
Proof.
  do 2 eexists. split; [reflexivity|]. now repeat split.
Qed.

Lemma Do_empty_body_witness :
  200 <= 204 <= 299 /\
  dyn_writer (Stub.bool_pointer false) = None /\
  do_err (Do (Stub.client_with (Stub.answering 204 (Stub.body_of EmptyString)))
            context_Background Stub.get_users_42
            (Some (Stub.bool_pointer false))) = None /\
  do_v (Do (Stub.client_with (Stub.answering 204 (Stub.body_of EmptyString)))
          context_Background Stub.get_users_42
          (Some (Stub.bool_pointer false)))
    = Some (Stub.bool_pointer false).
Proof.
  assert (Hc : 200 <= 204 <= 299) by lia.
  split; [exact Hc|]. split; [reflexivity|].
  exact (Do_empty_body
           (Stub.client_with (Stub.answering 204 (Stub.body_of EmptyString)))
           context_Background Stub.get_users_42 (Stub.bool_pointer false)
           {| resp_StatusCode := 204; resp_Header := ∅;
              resp_Request := outbound context_Background Stub.get_users_42 |}
           (Stub.body_of EmptyString)
           Stub_Decode_EOF_on_empty eq_refl Hc eq_refl eq_refl eq_refl
           eq_refl).
Defined.

(** A body that holds a value is decoded into the destination. *)
Example Do_decodes :
  do_v (Do (Stub.client_with (Stub.answering 200 (Stub.body_of "true")))
          context_Background Stub.get_users_42
          (Some (Stub.bool_pointer false)))
    = Some (Stub.bool_pointer true) /\
  do_err (Do (Stub.client_with (Stub.answering 200 (Stub.body_of "true")))
            context_Background Stub.get_users_42
            (Some (Stub.bool_pointer false))) = None.
Proof. split; reflexivity. Qed.

(** C8 fails on the byte-sink branch: the body fails after it has
    delivered a part, the part is written to the sink, and [Do] returns a
    nil error; on the decoding branch the error of the read comes back. *)
Example Do_writer_masks_read_error :
  Do (Stub.client_with
        (Stub.answering 200 (Stub.cut_body "part" Stub.connection_reset)))
     context_Background Stub.get_users_42 (Some (Stub.buffer []))
    = {| do_response :=
           Some (newResponse
                   {| resp_StatusCode := 200; resp_Header := ∅;
                      resp_Request :=
                        outbound context_Background Stub.get_users_42 |});
         do_err := None;
         do_v := Some (Stub.buffer (list_byte_of_string "part"));
         do_body := Some {| pending := [];
                            failure := Some Stub.connection_reset;
                            closed := true |} |} /\
  do_err (Do (Stub.client_with
                (Stub.answering 200 (Stub.broken_body Stub.connection_reset)))
            context_Background Stub.get_users_42
            (Some (Stub.bool_pointer false)))
    = Some (lib_error Stub.connection_reset).
Proof. split; reflexivity. Qed.

(** ** New, addOptions, NewRequest, AddAuthorization *)

(** The client of the specification's scenario. *)
Example New_acme :
  BaseURL (New "tok123" "acme") = Some Stub.origin_acme /\
  buildURL baseURL ["acme"] = "https://acme.okta.com/".
Proof. split; reflexivity. Qed.

(** C6 as stated fails: with a line feed in the organisation the origin
    is no URL and the construction of the specification fails, while
    [New] returns a client, with a nil [BaseURL] and nothing that tells
    the caller of the error. *)
Lemma New_swallows_parse_error :
  url_Parse (buildURL baseURL [Stub.bad_organisation])
    = Fail Stub.invalid_control_character /\
  New_propagating "tok123" Stub.bad_organisation
    = Fail Stub.invalid_control_character /\
  New "tok123" Stub.bad_organisation
    = {| client := http_DefaultClient; BaseURL := None;
         organisation := Stub.bad_organisation; apiToken := "tok123";
         UserAgent := EmptyString |}.
Proof. repeat split. Qed.

(** A request built on such a client panics when the path is relative. *)
Example NewRequest_nil_BaseURL :
  NewRequest (New "tok123" Stub.bad_organisation) "GET" "users/42" None
    = Panics.
Proof. reflexivity. Qed.

Lemma addOptions_nil_pointer_witness :
  dyn_kind Stub.nil_options = Ptr /\
  dyn_nil Stub.nil_options = true /\
  addOptions "users" (Some Stub.nil_options) = ("users", None).
Proof.
  split; [reflexivity|]. split; [reflexivity|].
  exact (addOptions_nil_pointer "users" Stub.nil_options eq_refl eq_refl).
Defined.

(** The request of the specification's scenario. *)
Example NewRequest_users_42 :
  exists req,
    NewRequest (Stub.client_with Stub.DefaultClient) "GET" "users/42" None
      = Returns (Some req, None) /\
    req_Method req = "GET" /\
    req_URL req = Stub.users_42_abs /\
    fst (AddAuthorization (Stub.client_with Stub.DefaultClient)
           context_Background req)
      = {| req_Method := "GET"; req_URL := Stub.users_42_abs;
           req_Header :=
             <["Authorization" := ["SSWS tok123"]]>
               (<["Accept" := ["application/json"]]> ∅);
           req_Body := None; req_ctx := context_Background |}.
Proof.
  eexists. split; [reflexivity|]. repeat split.
Qed.

(** C5 fails for a request without a body: as [NewRequest] builds it, it
    has no body and no [Content-Type]; the request [Do] hands to the
    transport (the one the stub's answer names as its request) still has
    no body and carries [Content-Type: application/json]. *)
Example Do_bodiless_request_Content_Type :
  exists req resp,
    NewRequest
      (Stub.client_with (Stub.answering 200 (Stub.body_of EmptyString)))
      "GET" "users/42" None = Returns (Some req, None) /\
    req_Body req = None /\
    Header_Values (req_Header req) "Content-Type" = None /\
    do_response
      (Do (Stub.client_with (Stub.answering 200 (Stub.body_of EmptyString)))
          context_Background req None) = Some resp /\
    req_Body (resp_Request (Response_http resp)) = None /\
    Header_Values (req_Header (resp_Request (Response_http resp)))
      "Content-Type" = Some ["application/json"].
Proof.
  do 2 eexists. split; [reflexivity|]. split; [reflexivity|].
  split; [reflexivity|]. split; [reflexivity|]. split; reflexivity.
Qed.

(** Without a token the request goes out as it was built. *)
Example AddAuthorization_no_token :
  AddAuthorization
    {| client := Stub.DefaultClient; BaseURL := Some Stub.origin_acme;
       organisation := "acme"; apiToken := EmptyString;
       UserAgent := EmptyString |}
    context_Background Stub.get_users_42
    = (Stub.get_users_42, None).
Proof. reflexivity. Qed.

(** * Further properties of the package *)

(** ** The text of an error *)

Lemma extra_operands_strings (args : list string) :
  extra_operands (op_string <$> args) = extra_args args.
Proof.
  induction args as [|a [|b rest] IH]; [reflexivity..|].
  change (extra_operands (op_string <$> a :: b :: rest))
    with ("string=" +:+ a +:+ ", " +:+ extra_operands (op_string <$> b :: rest)).
  now rewrite IH.
Qed.

(** On string operands the typed formatter is [Sprintf]. *)
Lemma Sprintf_operands_strings (format : string) :
  (forall args, Sprintf_operands format (op_string <$> args) = Sprintf format args) /\
  (forall c args,
     Sprintf_operands (String c format) (op_string <$> args)
       = Sprintf (String c format) args).
Proof.
  induction format as [|v rest [IH1 IH2]].
  - assert (H0 : forall args,
               Sprintf_operands EmptyString (op_string <$> args)
                 = Sprintf EmptyString args).
    { intros [|a args]; [reflexivity|].
      unfold Sprintf. rewrite <- extra_operands_strings. reflexivity. }
    split; [exact H0|].
    intros c args.
    change (Sprintf_operands (String c EmptyString) (op_string <$> args))
      with (if Ascii.eqb c "%"
            then "%!(NOVERB)" +:+ Sprintf_operands EmptyString (op_string <$> args)
            else String c (Sprintf_operands EmptyString (op_string <$> args))).
    change (Sprintf (String c EmptyString) args)
      with (if Ascii.eqb c "%"
            then "%!(NOVERB)" +:+ Sprintf EmptyString args
            else String c (Sprintf EmptyString args)).
    now rewrite H0.
  - split; [intros args; apply IH2|].
    intros c args.
    change (Sprintf_operands (String c (String v rest)) (op_string <$> args))
      with (if Ascii.eqb c "%" then
              if Ascii.eqb v "%"
              then String "%" (Sprintf_operands rest (op_string <$> args))
              else
                match op_string <$> args with
                | [] =>
                    "%!" +:+ String v ("(MISSING)" +:+ Sprintf_operands rest [])
                | a :: args' =>
                    verb_operand v a +:+ Sprintf_operands rest args'
                end
            else String c (Sprintf_operands (String v rest) (op_string <$> args))).
    change (Sprintf (String c (String v rest)) args)
      with (if Ascii.eqb c "%" then
              if Ascii.eqb v "%" then String "%" (Sprintf rest args)
              else
                match args with
                | [] => "%!" +:+ String v ("(MISSING)" +:+ Sprintf rest [])
                | a :: args' => verb_string v a +:+ Sprintf rest args'
                end
            else String c (Sprintf (String v rest) args)).
    rewrite IH1, IH2.
    destruct args as [|a args]; [now rewrite <- (IH1 [])|].
    change (op_string <$> a :: args) with (op_string a :: (op_string <$> args)).
    cbv beta iota. now rewrite IH1.
Qed.

(** The text of an error, part by part. *)
Lemma Error_text `{Library} (r : ErrorResponse) :
  Error r =
    req_Method (resp_Request (ErrorResponse_Response r)) +:+ " "
    +:+ URL_String (req_URL (resp_Request (ErrorResponse_Response r)))
    +:+ ": Okta responsed with code "
    +:+ pretty (resp_StatusCode (ErrorResponse_Response r))
    +:+ ", type " +:+ Type_ r +:+ " and message " +:+ Message r.
Proof.
  unfold Error.
  cbn [Sprintf_operands Ascii.eqb Bool.eqb verb_operand verb_string orb].
  now rewrite append_empty.
Qed.

(** ** More on checkResponse and Error *)

Section FurtherInterpreter.
Context `{Lib : Library}.

(** The error [checkResponse] returns is about the response it was
    given. *)
Lemma checkResponse_error_response (r : http_Response) (body : ReadCloser)
    (e : ErrorResponse) :
  fst (checkResponse r body) = Some (ErrorResponse_error e) ->
  ErrorResponse_Response e = r.
Proof.
  unfold checkResponse.
  destruct ((200 <=? resp_StatusCode r)%Z && (resp_StatusCode r <=? 299)%Z);
    [discriminate|].
  destruct (ioutil_ReadAll body) as [[data err] body'].
  destruct err as [e'|]; [|destruct data as [bs|]]; cbn;
    intros [= <-]; reflexivity.
Qed.

(** On a status of 200 to 299 [checkResponse] leaves the body unread; on
    any other status it reads an open body to its end. *)
Theorem checkResponse_reads_body_on_error_only (r : http_Response)
    (body : ReadCloser) :
  closed body = false ->
  snd (checkResponse r body) =
    if decide (200 <= resp_StatusCode r <= 299) then body
    else {| pending := []; failure := failure body; closed := false |}.
Proof.
  intros Hopen. destruct (decide (200 <= resp_StatusCode r <= 299)) as [Hc|Hc].
  - now rewrite checkResponse_success.
  - unfold checkResponse.
    destruct ((200 <=? resp_StatusCode r)%Z && (resp_StatusCode r <=? 299)%Z)
      eqn:Ht; [apply status_test in Ht; contradiction|].
    unfold ioutil_ReadAll. rewrite Hopen.
    now destruct (read_error body).
Qed.

(** Outside 200 to 299, with a body that is read to its end, the error's
    [Message] is the text of the body as it came and its [Type] is the
    status text of the status code. *)
Theorem checkResponse_message_verbatim (r : http_Response) (text : string) :
  ~ 200 <= resp_StatusCode r <= 299 ->
  exists e,
    fst (checkResponse r {| pending := list_byte_of_string text;
                            failure := None; closed := false |})
      = Some (ErrorResponse_error e) /\
    Message e = text /\
    Type_ e = http_StatusText (resp_StatusCode r).
Proof.
  intros Hc.
  rewrite (checkResponse_filled r
             {| pending := list_byte_of_string text; failure := None;
                closed := false |}
             {| pending := []; failure := None; closed := false |}
             (list_byte_of_string text) Hc eq_refl).
  eexists. split; [reflexivity|]. cbn.
  now rewrite string_of_list_byte_of_string.
Qed.

(** The text of an error that [checkResponse] returns names the method
    and the URL of the request and the status code of the response,
    whether or not the body could be read (and so whether or not [Code]
    was filled). *)
Theorem Error_reports_status (r : http_Response) (body : ReadCloser)
    (e : ErrorResponse) :
  fst (checkResponse r body) = Some (ErrorResponse_error e) ->
  Error e =
    req_Method (resp_Request r) +:+ " "
    +:+ URL_String (req_URL (resp_Request r))
    +:+ ": Okta responsed with code " +:+ pretty (resp_StatusCode r)
    +:+ ", type " +:+ Type_ e +:+ " and message " +:+ Message e.
Proof.
  intros He. apply checkResponse_error_response in He.
  rewrite Error_text. now rewrite He.
Qed.

End FurtherInterpreter.

(** ** More on Do *)

Section FurtherDispatch.
Context `{Lib : Library}.

(** [Do] replaces the two headers it sets and keeps every other header
    of the request, with its method and URL. *)
Theorem Do_keeps_other_headers (ctx : context_Context) (req : http_Request)
    (key : string) :
  CanonicalMIMEHeaderKey key <> "Accept" ->
  CanonicalMIMEHeaderKey key <> "Content-Type" ->
  Header_Values (req_Header (outbound ctx req)) key
    = Header_Values (req_Header req) key /\
  req_Method (outbound ctx req) = req_Method req /\
  req_URL (outbound ctx req) = req_URL req.
Proof.
  intros Ha Hc. split; [|now split].
  unfold outbound, set_header, WithContext, Header_Values, Header_Set.
  cbn [req_Header].
  rewrite canonical_Accept, canonical_Content_Type.
  now rewrite !lookup_insert_ne by congruence.
Qed.

(** The credential survives the dispatch: after [AddAuthorization] with
    a token, the request [Do] hands to the transport carries
    [Authorization: SSWS token]. *)
Theorem Do_sends_Authorization (c : Client) (ctx ctx' : context_Context)
    (req : http_Request) :
  apiToken c <> EmptyString ->
  Header_Values
    (req_Header (outbound ctx (fst (AddAuthorization c ctx' req))))
    "Authorization" = Some ["SSWS " +:+ apiToken c].
Proof.
  intros Htok. unfold AddAuthorization.
  apply String.eqb_neq in Htok. rewrite Htok. cbn [negb fst].
  unfold outbound, set_header, WithContext, Header_Values, Header_Set.
  cbn [req_Header].
  rewrite canonical_Accept, canonical_Content_Type, canonical_Authorization.
  rewrite !lookup_insert_ne by discriminate.
  now rewrite lookup_insert_eq, Sprintf_SSWS.
Qed.

(** [Do] returns a response exactly when the transport gave one, and
    then it is that response, on every path. *)
Theorem Do_response_follows_transport (c : Client) (ctx : context_Context)
    (req : http_Request) (v : any) :
  do_response (Do c ctx req v) =
    match client c (outbound ctx req) with
    | Ok (resp, _) => Some (newResponse resp)
    | Fail _ => None
    end.
Proof.
  unfold Do.
  destruct (client c (outbound ctx req)) as [[resp body]|err].
  - destruct (checkResponse resp body) as [[e|] body']; [reflexivity|].
    destruct v as [d|]; [|reflexivity].
    destruct (dyn_writer d) as [w|].
    + now destruct (io_Copy w body') as [[w' err] body''].
    + now destruct (json_Decode body' d) as [[body'' d'] err].
  - now destruct (ctx_done ctx).
Qed.

(** The body's release: whenever the transport gave a response, [Do]
    leaves its body closed, on every path; there is no body only when
    the transport failed. *)
Theorem Do_closes_body (c : Client) (ctx : context_Context)
    (req : http_Request) (v : any) :
  match do_body (Do c ctx req v) with
  | Some b => closed b = true
  | None => exists err, client c (outbound ctx req) = Fail err
  end.
Proof.
  unfold Do.
  destruct (client c (outbound ctx req)) as [[resp body]|err].
  - destruct (checkResponse resp body) as [[e|] body']; [reflexivity|].
    destruct v as [d|]; [|reflexivity].
    destruct (dyn_writer d) as [w|].
    + now destruct (io_Copy w body') as [[w' err] body''].
    + now destruct (json_Decode body' d) as [[body'' d'] err].
  - destruct (ctx_done ctx); cbn; eauto.
Qed.

(** When [Do] returns no response, or returns an [*ErrorResponse], the
    destination is as the caller passed it: nothing was written or
    decoded into it. *)
Theorem Do_error_keeps_destination (c : Client) (ctx : context_Context)
    (req : http_Request) (v : any) :
  do_response (Do c ctx req v) = None \/
  (exists e, do_err (Do c ctx req v) = Some (ErrorResponse_error e)) ->
  do_v (Do c ctx req v) = v.
Proof.
  unfold Do.
  destruct (client c (outbound ctx req)) as [[resp body]|err];
    [|now destruct (ctx_done ctx)].
  destruct (checkResponse resp body) as [[e|] body']; [reflexivity|].
  destruct v as [d|]; [|reflexivity].
  destruct (dyn_writer d) as [w|].
  - destruct (io_Copy w body') as [[w' err] body''].
    intros [Hr|[e He]]; discriminate.
  - destruct (json_Decode body' d) as [[body'' d'] err].
    intros [Hr|[e He]]; [discriminate|].
    cbn in He. destruct err as [[]|]; discriminate.
Qed.


(** A nil destination discards the body: on a status of 200 to 299 [Do]
    returns a nil error, and of an open body it drops the first 512
    bytes at most before it closes it. *)
Theorem Do_nil_destination (c : Client) (ctx : context_Context)
    (req : http_Request) (resp : http_Response) (body : ReadCloser) :
  client c (outbound ctx req) = Ok (resp, body) ->
  200 <= resp_StatusCode resp <= 299 ->
  closed body = false ->
  do_err (Do c ctx req None) = None /\
  do_v (Do c ctx req None) = None /\
  do_body (Do c ctx req None)
    = Some {| pending := drop 512 (pending body); failure := failure body;
              closed := true |}.
Proof.
  intros Hsend Hc Hopen. unfold Do.
  rewrite Hsend, (checkResponse_success resp body Hc).
  cbn. unfold drain_and_close, io_CopyN_Discard. now rewrite Hopen.
Qed.

(** The decoding branch: an error of the decoder other than [io.EOF] is
    the error [Do] returns, with the destination as the decoder left
    it. *)
Theorem Do_decoder_error (c : Client) (ctx : context_Context)
    (req : http_Request) (d d' : dyn) (resp : http_Response)
    (body body' : ReadCloser) (e : liberror) :
  client c (outbound ctx req) = Ok (resp, body) ->
  200 <= resp_StatusCode resp <= 299 ->
  dyn_writer d = None ->
  json_Decode body d = (body', d', Some e) ->
  e <> io_EOF ->
  do_err (Do c ctx req (Some d)) = Some (lib_error e) /\
  do_v (Do c ctx req (Some d)) = Some d'.
Proof.
  intros Hsend Hc Hw Hdec Hne. unfold Do.
  rewrite Hsend, (checkResponse_success resp body Hc), Hw, Hdec.
  cbn. now destruct e.
Qed.

End FurtherDispatch.

(** ** More on NewRequest, addOptions and AddAuthorization *)

(** Lookups in the header of a request after some [Set]s. *)
Ltac header_after_sets :=
  unfold Header_Values, set_header, Header_Set; cbn [req_Header req_Body];
  rewrite ?canonical_Accept, ?canonical_Content_Type, ?canonical_User_Agent;
  repeat first [ rewrite lookup_insert_eq
               | rewrite lookup_insert_ne by discriminate ];
  try reflexivity.

Section FurtherConstruction.
Context `{Lib : Library}.

(** The shape of a request as [NewRequest] returns it: the fresh request
    of [http.NewRequest] with up to three headers set. *)
Lemma NewRequest_shape (c : Client) (method urlStr : string) (body : any)
    (req : http_Request) :
  NewRequest c method urlStr body = Returns (Some req, None) ->
  exists rel u buf r,
    url_Parse urlStr = Ok rel /\
    URL_ResolveReference (BaseURL c) rel = Some u /\
    match body with
    | None => buf = None
    | Some b => exists bs, json_Encode b = Ok bs /\ buf = Some bs
    end /\
    http_NewRequest method (URL_String u) buf = Ok r /\
    req =
      (let r1 := match body with
                 | Some _ => set_header r "Content-Type" "application/json"
                 | None => r
                 end in
       let r2 := set_header r1 "Accept" "application/json" in
       if negb (String.eqb (UserAgent c) EmptyString)
       then set_header r2 "User-Agent" (UserAgent c) else r2).
Proof.
  unfold NewRequest. intros Hreq.
  destruct (url_Parse urlStr) as [rel|] eqn:Hrel; [|discriminate].
  destruct (URL_ResolveReference (BaseURL c) rel) as [u|] eqn:Hu;
    [|discriminate].
  destruct body as [b|].
  - destruct (json_Encode b) as [bs|] eqn:Henc; [|discriminate].
    destruct (http_NewRequest method (URL_String u) (Some bs)) as [r|] eqn:Hr;
      [|discriminate].
    injection Hreq as <-. exists rel, u, (Some bs), r.
    split; [reflexivity|]. split; [exact Hu|].
    split; [now exists bs|]. now split.
  - destruct (http_NewRequest method (URL_String u) None) as [r|] eqn:Hr;
      [|discriminate].
    injection Hreq as <-. exists rel, u, None, r.
    split; [reflexivity|]. split; [exact Hu|]. now repeat split.
Qed.

(** [NewRequest] sets [User-Agent] to the client's user agent when one
    is configured, and sets no such header otherwise. *)
Theorem NewRequest_User_Agent (c : Client) (method urlStr : string)
    (body : any) (req : http_Request) :
  NewRequest c method urlStr body = Returns (Some req, None) ->
  Header_Values (req_Header req) "User-Agent" =
    if String.eqb (UserAgent c) EmptyString then None
    else Some [UserAgent c].
Proof.
  intros Hreq.
  destruct (NewRequest_shape _ _ _ _ _ Hreq)
    as (rel & u & buf & r & _ & _ & _ & Hr & ->).
  apply http_NewRequest_fresh in Hr as [Hh _].
  destruct (String.eqb (UserAgent c) EmptyString); cbn [negb];
    destruct body; header_after_sets; rewrite Hh; apply lookup_empty.
Qed.

(** The body of a request built with a body is its JSON encoding
    followed by a line feed. *)
Theorem NewRequest_encodes_body (c : Client) (method urlStr : string)
    (b : dyn) (req : http_Request) :
  NewRequest c method urlStr (Some b) = Returns (Some req, None) ->
  exists bs, json_Marshal b = Ok bs /\ req_Body req = Some (bs ++ [x0a])%list.
Proof.
  intros Hreq.
  destruct (NewRequest_shape _ _ _ _ _ Hreq)
    as (rel & u & buf & r & _ & _ & (bs & Henc & ->) & Hr & ->).
  apply http_NewRequest_fresh in Hr as [_ Hb].
  unfold json_Encode in Henc.
  destruct (json_Marshal b) as [bs'|]; [|discriminate].
  injection Henc as <-. exists bs'. split; [reflexivity|].
  now destruct (negb _).
Qed.

(** [NewRequest] returns a request or an error, never both and never
    neither; and it panics exactly when the path parses and its
    resolution dereferences a nil [BaseURL]. *)
Theorem NewRequest_request_or_error (c : Client) (method urlStr : string)
    (body : any) :
  (NewRequest c method urlStr body = Panics <->
   exists rel, url_Parse urlStr = Ok rel /\
               URL_ResolveReference (BaseURL c) rel = None) /\
  (NewRequest c method urlStr body = Panics \/
   (exists req, NewRequest c method urlStr body = Returns (Some req, None)) \/
   (exists err, NewRequest c method urlStr body = Returns (None, Some err))).
Proof.
  unfold NewRequest.
  destruct (url_Parse urlStr) as [rel|err] eqn:Hrel.
  - destruct (URL_ResolveReference (BaseURL c) rel) as [u|] eqn:Hu.
    + match goal with
      | |- (?E = Panics <-> _) /\ _ =>
          assert (Hret : (exists req, E = Returns (Some req, None)) \/
                         (exists e, E = Returns (None, Some e)))
      end.
      { destruct body as [b|]; [destruct (json_Encode b)|]; eauto;
          destruct (http_NewRequest _ _ _); eauto. }
      split; [|now right].
      split.
      * intros HP. destruct Hret as [[x H]|[x H]]; rewrite H in HP;
          discriminate.
      * intros (rel' & [= <-] & Hnone). rewrite Hu in Hnone. discriminate.
    + split; [|now left].
      split; [|reflexivity]. intros _. now exists rel.
  - split; [|right; right; eauto].
    split; [discriminate|]. intros (rel & Hp & _). discriminate.
Qed.

(** Whenever [addOptions] returns an error, the string it returns is the
    path it was given, and the error is the one [url.Parse] or
    [query.Values] reported. *)
Theorem addOptions_error_keeps_path (s : string) (opt : any) (err : error) :
  snd (addOptions s opt) = Some err ->
  fst (addOptions s opt) = s /\
  exists e, err = lib_error e /\
            (url_Parse s = Fail e \/ query_Values opt = Fail e).
Proof.
  unfold addOptions.
  destruct (Kind_eqb (Value_Kind opt) Ptr && Value_IsNil opt); [discriminate|].
  destruct (url_Parse s) as [u|e].
  - destruct (query_Values opt) as [qs|e]; [discriminate|].
    cbn. intros [= <-]. eauto.
  - cbn. intros [= <-]. eauto.
Qed.

(** [addOptions] replaces the query of the path: two paths that differ
    in their query only give the same result, whose query is the
    encoding of the options. *)
Theorem addOptions_replaces_query (s s' : string) (opt : any) (u : URL)
    (q : string) (qs : gmap string (list string)) :
  (Kind_eqb (Value_Kind opt) Ptr && Value_IsNil opt) = false ->
  url_Parse s = Ok u ->
  url_Parse s' = Ok (URL_with_RawQuery u q) ->
  query_Values opt = Ok qs ->
  addOptions s' opt = addOptions s opt /\
  addOptions s opt =
    (URL_String (URL_with_RawQuery u (Values_Encode qs)), None).
Proof.
  intros Hopt Hs Hs' Hqs. unfold addOptions.
  now rewrite Hopt, Hs, Hs', Hqs.
Qed.

(** [AddAuthorization] replaces the credential, it does not add to it:
    applied to its own result it changes nothing. *)
Theorem AddAuthorization_idempotent (c : Client) (ctx ctx' : context_Context)
    (req : http_Request) :
  fst (AddAuthorization c ctx (fst (AddAuthorization c ctx' req)))
    = fst (AddAuthorization c ctx' req).
Proof.
  unfold AddAuthorization.
  destruct (negb (String.eqb (apiToken c) EmptyString)); [|reflexivity].
  cbn [fst]. unfold set_header, Header_Set. cbn.
  now rewrite insert_insert_eq.
Qed.

End FurtherConstruction.

(** * The further properties against the stub *)

(** ** checkResponse and Error *)

Lemma checkResponse_reads_body_on_error_only_witness :
  closed (Stub.body_of "not found") = false /\
  snd (checkResponse (Stub.response 404) (Stub.body_of "not found"))
    = {| pending := []; failure := None; closed := false |} /\
  snd (checkResponse (Stub.response 200) (Stub.body_of "true"))
    = Stub.body_of "true".
Proof.
  split; [reflexivity|]. split.
  - exact (checkResponse_reads_body_on_error_only (Stub.response 404)
             (Stub.body_of "not found") eq_refl).
  - exact (checkResponse_reads_body_on_error_only (Stub.response 200)
             (Stub.body_of "true") eq_refl).
Defined.

Lemma checkResponse_message_verbatim_witness :
  ~ 200 <= resp_StatusCode (Stub.response 404) <= 299 /\
  exists e,
    fst (checkResponse (Stub.response 404)
           {| pending := list_byte_of_string "not found"; failure := None;
              closed := false |})
      = Some (ErrorResponse_error e) /\
    Message e = "not found" /\
    Type_ e = http_StatusText (resp_StatusCode (Stub.response 404)).
Proof.
  assert (Hc : ~ 200 <= resp_StatusCode (Stub.response 404) <= 299)
    by (cbn; lia).
  split; [exact Hc|].
  exact (checkResponse_message_verbatim (Stub.response 404) "not found" Hc).
Defined.

Lemma Error_reports_status_witness :
  fst (checkResponse (Stub.response 500)
         (Stub.broken_body Stub.connection_reset))
    = Some (ErrorResponse_error
              {| ErrorResponse_Response := Stub.response 500; Code := 0;
                 Type_ := EmptyString; Message := EmptyString |}) /\
  Error {| ErrorResponse_Response := Stub.response 500; Code := 0;
           Type_ := EmptyString; Message := EmptyString |}
    = "GET https://acme.okta.com/users/42: Okta responsed with code 500, type  and message ".
Proof.
  split; [reflexivity|].
  exact (Error_reports_status (Stub.response 500)
           (Stub.broken_body Stub.connection_reset)
           {| ErrorResponse_Response := Stub.response 500; Code := 0;
              Type_ := EmptyString; Message := EmptyString |} eq_refl).
Defined.

(** The text of the 404 of the specification's scenario. *)
Example Error_404 :
  Error {| ErrorResponse_Response := Stub.response 404; Code := 404;
           Type_ := "Not Found"; Message := "not found" |}
    = "GET https://acme.okta.com/users/42: Okta responsed with code 404, type Not Found and message not found".
Proof. reflexivity. Qed.

(** ** Do *)

Lemma Do_transport_error_witness :
  client (Stub.client_with (Stub.failing Stub.connection_reset))
    (outbound context_Background Stub.get_users_42)
    = Fail Stub.connection_reset /\
  ctx_done context_Background = false /\
  Do (Stub.client_with (Stub.failing Stub.connection_reset))
     context_Background Stub.get_users_42 (Some (Stub.bool_pointer false))
    = {| do_response := None;
         do_err := Some (lib_error Stub.connection_reset);
         do_v := Some (Stub.bool_pointer false); do_body := None |}.
Proof.
  split; [reflexivity|]. split; [reflexivity|].
  exact (Do_transport_error
           (Stub.client_with (Stub.failing Stub.connection_reset))
           context_Background Stub.get_users_42
           (Some (Stub.bool_pointer false)) Stub.connection_reset
           eq_refl eq_refl).
Defined.

(** A request that carries a credential and a header of the caller's. *)
Definition authorized_request : http_Request :=
  {| req_Method := "GET"; req_URL := Stub.users_42_abs;
     req_Header :=
       <["X-Request-Id" := ["r-1"]]>
         (<["Authorization" := ["SSWS tok123"]]> ∅);
     req_Body := None; req_ctx := context_Background |}.

Lemma Do_keeps_other_headers_witness :
  Header_Values (req_Header (outbound Stub.canceled authorized_request))
    "x-request-id" = Some ["r-1"] /\
  req_Method (outbound Stub.canceled authorized_request) = "GET" /\
  req_URL (outbound Stub.canceled authorized_request) = Stub.users_42_abs.
Proof.
  apply (Do_keeps_other_headers Stub.canceled authorized_request
           "x-request-id"); discriminate.
Defined.

Lemma Do_sends_Authorization_witness :
  apiToken (Stub.client_with Stub.DefaultClient) <> EmptyString /\
  Header_Values
    (req_Header
       (outbound Stub.canceled
          (fst (AddAuthorization (Stub.client_with Stub.DefaultClient)
                  context_Background Stub.get_users_42))))
    "Authorization" = Some ["SSWS tok123"].
Proof.
  assert (Htok : apiToken (Stub.client_with Stub.DefaultClient) <> EmptyString)
    by discriminate.
  split; [exact Htok|].
  exact (Do_sends_Authorization (Stub.client_with Stub.DefaultClient)
           Stub.canceled context_Background Stub.get_users_42 Htok).
Defined.

Lemma Do_error_keeps_destination_witness :
  (exists e,
     do_err
       (Do (Stub.client_with (Stub.answering 404 (Stub.body_of "true")))
           context_Background Stub.get_users_42
           (Some (Stub.bool_pointer false)))
       = Some (ErrorResponse_error e)) /\
  do_v (Do (Stub.client_with (Stub.answering 404 (Stub.body_of "true")))
          context_Background Stub.get_users_42
          (Some (Stub.bool_pointer false)))
    = Some (Stub.bool_pointer false).
Proof.
  assert (He : exists e,
     do_err
       (Do (Stub.client_with (Stub.answering 404 (Stub.body_of "true")))
           context_Background Stub.get_users_42
           (Some (Stub.bool_pointer false)))
       = Some (ErrorResponse_error e)) by (eexists; reflexivity).
  split; [exact He|].
  exact (Do_error_keeps_destination
           (Stub.client_with (Stub.answering 404 (Stub.body_of "true")))
           context_Background Stub.get_users_42
           (Some (Stub.bool_pointer false)) (or_intror He)).
Defined.


Lemma Do_nil_destination_witness :
  do_err (Do (Stub.client_with (Stub.answering 204 (Stub.body_of "unread")))
            context_Background Stub.get_users_42 None) = None /\
  do_v (Do (Stub.client_with (Stub.answering 204 (Stub.body_of "unread")))
          context_Background Stub.get_users_42 None) = None /\
  do_body (Do (Stub.client_with (Stub.answering 204 (Stub.body_of "unread")))
             context_Background Stub.get_users_42 None)
    = Some {| pending := []; failure := None; closed := true |}.
Proof.
  assert (Hc : 200 <= 204 <= 299) by lia.
  exact (Do_nil_destination
           (Stub.client_with (Stub.answering 204 (Stub.body_of "unread")))
           context_Background Stub.get_users_42
           {| resp_StatusCode := 204; resp_Header := ∅;
              resp_Request := outbound context_Background Stub.get_users_42 |}
           (Stub.body_of "unread") eq_refl Hc eq_refl).
Defined.

Lemma Do_decoder_error_witness :
  do_err (Do (Stub.client_with
                (Stub.answering 200 (Stub.broken_body io_ErrUnexpectedEOF)))
            context_Background Stub.get_users_42
            (Some (Stub.bool_pointer false)))
    = Some (lib_error io_ErrUnexpectedEOF) /\
  do_v (Do (Stub.client_with
              (Stub.answering 200 (Stub.broken_body io_ErrUnexpectedEOF)))
          context_Background Stub.get_users_42
          (Some (Stub.bool_pointer false)))
    = Some (Stub.bool_pointer false).
Proof.
  assert (Hc : 200 <= 200 <= 299) by lia.
  assert (Hne : io_ErrUnexpectedEOF <> io_EOF) by discriminate.
  exact (Do_decoder_error
           (Stub.client_with
              (Stub.answering 200 (Stub.broken_body io_ErrUnexpectedEOF)))
           context_Background Stub.get_users_42
           (Stub.bool_pointer false) (Stub.bool_pointer false)
           {| resp_StatusCode := 200; resp_Header := ∅;
              resp_Request := outbound context_Background Stub.get_users_42 |}
           (Stub.broken_body io_ErrUnexpectedEOF)
           (Stub.broken_body io_ErrUnexpectedEOF) io_ErrUnexpectedEOF
           eq_refl Hc eq_refl eq_refl Hne).
Defined.

(** ** NewRequest and addOptions *)

(** The requests [NewRequest] builds on the stub: a GET without a body,
    the same with a user agent configured, a PUT with a body. *)
Definition built_get : http_Request :=
  {| req_Method := "GET"; req_URL := Stub.users_42_abs;
     req_Header := <["Accept" := ["application/json"]]> ∅;
     req_Body := None; req_ctx := context_Background |}.

Definition built_get_agent : http_Request :=
  {| req_Method := "GET"; req_URL := Stub.users_42_abs;
     req_Header :=
       <["User-Agent" := ["okta-go/1.0"]]>
         (<["Accept" := ["application/json"]]> ∅);
     req_Body := None; req_ctx := context_Background |}.

Definition built_put : http_Request :=
  {| req_Method := "PUT"; req_URL := Stub.users_42_abs;
     req_Header :=
       <["Accept" := ["application/json"]]>
         (<["Content-Type" := ["application/json"]]> ∅);
     req_Body := Some (list_byte_of_string "true" ++ [x0a])%list;
     req_ctx := context_Background |}.

(** The stub's client with a user agent configured. *)
Definition client_with_agent (agent : string) : Client :=
  {| client := Stub.DefaultClient; BaseURL := Some Stub.origin_acme;
     organisation := "acme"; apiToken := "tok123"; UserAgent := agent |}.

Lemma NewRequest_headers_witness :
  NewRequest (Stub.client_with Stub.DefaultClient) "GET" "users/42" None
    = Returns (Some built_get, None) /\
  Header_Values (req_Header built_get) "Accept" = Some ["application/json"] /\
  Header_Values (req_Header built_get) "Content-Type" = None /\
  req_Body built_get = None.
Proof.
  assert (Hreq : NewRequest (Stub.client_with Stub.DefaultClient)
                   "GET" "users/42" None = Returns (Some built_get, None))
    by reflexivity.
  split; [exact Hreq|].
  destruct (NewRequest_headers (Stub.client_with Stub.DefaultClient)
              "GET" "users/42" None built_get Hreq) as (Ha & Hc & Hb).
  split; [exact Ha|]. split; [exact Hc|]. exact (Hb eq_refl).
Defined.

Lemma NewRequest_User_Agent_witness :
  NewRequest (client_with_agent "okta-go/1.0") "GET" "users/42" None
    = Returns (Some built_get_agent, None) /\
  Header_Values (req_Header built_get_agent) "User-Agent"
    = Some ["okta-go/1.0"] /\
  NewRequest (client_with_agent EmptyString) "GET" "users/42" None
    = Returns (Some built_get, None) /\
  Header_Values (req_Header built_get) "User-Agent" = None.
Proof.
  assert (Hreq : NewRequest (client_with_agent "okta-go/1.0")
                   "GET" "users/42" None
                 = Returns (Some built_get_agent, None)) by reflexivity.
  assert (Hreq' : NewRequest (client_with_agent EmptyString)
                    "GET" "users/42" None
                  = Returns (Some built_get, None)) by reflexivity.
  split; [exact Hreq|]. split.
  - exact (NewRequest_User_Agent (client_with_agent "okta-go/1.0")
             "GET" "users/42" None built_get_agent Hreq).
  - split; [exact Hreq'|].
    exact (NewRequest_User_Agent (client_with_agent EmptyString)
             "GET" "users/42" None built_get Hreq').
Defined.

Lemma NewRequest_encodes_body_witness :
  NewRequest (Stub.client_with Stub.DefaultClient) "PUT" "users/42"
    (Some (Stub.bool_pointer true)) = Returns (Some built_put, None) /\
  exists bs,
    json_Marshal (Stub.bool_pointer true) = Ok bs /\
    req_Body built_put = Some (bs ++ [x0a])%list.
Proof.
  assert (Hreq : NewRequest (Stub.client_with Stub.DefaultClient)
                   "PUT" "users/42" (Some (Stub.bool_pointer true))
                 = Returns (Some built_put, None)) by reflexivity.
  split; [exact Hreq|].
  exact (NewRequest_encodes_body (Stub.client_with Stub.DefaultClient)
           "PUT" "users/42" (Stub.bool_pointer true) built_put Hreq).
Defined.

Lemma addOptions_error_keeps_path_witness :
  snd (addOptions Stub.bad_organisation None)
    = Some (lib_error Stub.invalid_control_character) /\
  fst (addOptions Stub.bad_organisation None) = Stub.bad_organisation /\
  exists e,
    lib_error Stub.invalid_control_character = lib_error e /\
    (url_Parse Stub.bad_organisation = Fail e \/ query_Values None = Fail e).
Proof.
  split; [reflexivity|].
  exact (addOptions_error_keeps_path Stub.bad_organisation None
           (lib_error Stub.invalid_control_character) eq_refl).
Defined.

(** The stub with one more path in the table of its parser, a path with
    a query. *)
Definition Parse_with_query (s : string) : result URL :=
  if String.eqb s "users/42?limit=1"
  then Ok (URL_with_RawQuery Stub.users_42_rel "limit=1")
  else Stub.Parse s.

Definition library_with_query : Library := {|
  url_Parse := Parse_with_query;
  URL_String := Stub.URL_text;
  URL_ResolveReference := Stub.ResolveReference;
  query_Values := Stub.Values;
  Values_Encode := Stub.Encode;
  json_Marshal := Stub.Marshal;
  json_Decode := Stub.Decode;
  http_StatusText := Stub.StatusText;
  http_invalidMethod := Stub.invalidMethod;
  http_DefaultClient := Stub.DefaultClient
|}.

Lemma addOptions_replaces_query_witness :
  addOptions (Lib := library_with_query) "users/42?limit=1" None
    = addOptions (Lib := library_with_query) "users/42" None /\
  addOptions (Lib := library_with_query) "users/42" None
    = ("users/42", None).
Proof.
  exact (addOptions_replaces_query (Lib := library_with_query)
           "users/42" "users/42?limit=1" None Stub.users_42_rel "limit=1" ∅
           eq_refl eq_refl eq_refl eq_refl).
Defined.
